(** * Verification of the find operation, the auth provider registry and the
      topology / pool core of the MongoDB Node.js driver

    The development embeds
      - [src/operations/find.ts] (module [Find]),
      - [src/cmap/auth/defaultAuthProviders.ts] (module [Auth]),
    and, for the parts of the driver that the specification describes but
    whose code is kept in other files, models written from the
    specification (modules [Handshake], [Selector], [Pool], [Sdam]). *)

From Stdlib Require Import ZArith NArith QArith List Bool Lia Permutation.
From stdpp Require Import base option strings list gmap pretty.

Local Open Scope Z_scope.
Local Open Scope string_scope.

(** ** JavaScript values *)

(** The run-time values [find.ts] inspects with [typeof], [Array.isArray],
    [Buffer.isBuffer], truthiness tests and property reads.  Numbers are
    the integers plus NaN; an object is a finite map from property names to
    values.  Arrays and Buffers carry their elements only (no extra named
    properties). *)
#[warnings="-register-all"]
Inductive JsVal : Type :=
| VUndefined
| VNull
| VBool (b : bool)
| VNum (n : Z)
| VNaN
| VStr (s : string)
| VFunction
| VArray (elems : list JsVal)
| VBuffer (bytes : list Z)
| VObject (props : gmap string JsVal).

Abbreviation Document := (gmap string JsVal).

(** [typeof v] *)
Definition typeof (v : JsVal) : string :=
  match v with
  | VUndefined => "undefined"
  | VNull => "object"
  | VBool _ => "boolean"
  | VNum _ | VNaN => "number"
  | VStr _ => "string"
  | VFunction => "function"
  | VArray _ | VBuffer _ | VObject _ => "object"
  end.

(** [Array.isArray(v)] *)
Definition isArray (v : JsVal) : bool :=
  match v with VArray _ => true | _ => false end.

(** [Buffer.isBuffer(v)] *)
Definition isBuffer (v : JsVal) : bool :=
  match v with VBuffer _ => true | _ => false end.

(** ToBoolean, as used by [if (v)], [!v], [a || b] and [a && b]. *)
Definition truthy (v : JsVal) : bool :=
  match v with
  | VUndefined | VNull | VNaN => false
  | VBool b => b
  | VNum n => negb (n =? 0)%Z
  | VStr s => negb (String.eqb s "")
  | VFunction | VArray _ | VBuffer _ | VObject _ => true
  end.

(** [a || b] *)
Definition js_or (a b : JsVal) : JsVal := if truthy a then a else b.

(** [a ?? b] *)
Definition nullish (a b : JsVal) : JsVal :=
  match a with VUndefined | VNull => b | _ => a end.

(** [o.k] on an options object: a missing property reads as [undefined]. *)
Definition get (o : Document) (k : string) : JsVal :=
  default VUndefined (o !! k).

(** [v.k] on an arbitrary non-nullish value. *)
Definition get_member (v : JsVal) (k : string) : JsVal :=
  match v with
  | VObject props => get props k
  | _ => VUndefined
  end.

(** [typeof v === 't'] *)
Definition typeof_eq (v : JsVal) (t : string) : bool := String.eqb (typeof v) t.

(** [if (c) o.k = v] *)
Definition assign_when (c : bool) (k : string) (v : JsVal) (o : Document) : Document :=
  if c then <[ k := v ]> o else o.

(** [v === 'lit'] *)
Definition strict_eq_str (v : JsVal) (lit : string) : bool :=
  match v with VStr s => String.eqb s lit | _ => false end.

(** [v != null] *)
Definition not_nullish (v : JsVal) : bool :=
  match v with VUndefined | VNull => false | _ => true end.

(** 32-bit integer arithmetic of the bit operators. *)
Definition to_int32 (z : Z) : Z := (z + 2 ^ 31) mod 2 ^ 32 - 2 ^ 31.
Definition int32_shl (a n : Z) : Z := to_int32 (Z.shiftl (to_int32 a) (n mod 32)).
Definition int32_or (a b : Z) : Z := to_int32 (Z.lor (to_int32 a) (to_int32 b)).

(** [buf[i]] used as an operand of a bit operator: an index out of range
    reads [undefined], which ToInt32 turns into 0. *)
Definition byte_at (bytes : list Z) (i : nat) : Z := default 0 (bytes !! i).

(** Errors thrown or handed to callbacks. *)
Inductive Exn : Type :=
| MongoError (message : string)
| TypeError (message : string).

Inductive Completion (A : Type) : Type :=
| Normal (a : A)
| Throw (e : Exn).
Arguments Normal {A} a.
Arguments Throw {A} e.

(** ** src/operations/find.ts *)
Module Find.

Definition SUPPORTS_WRITE_CONCERN_AND_COLLATION : Z := 5.

(** What [super(collection, options)] leaves on [this] and [execute] reads. *)
Record CommandOperationBase : Type := {
  base_options : Document;
  base_readConcern : JsVal;
  (** [None]: no session; [Some b]: a session whose [inTransaction()] is [b] *)
  base_session : option bool;
  base_fullResponse : JsVal
}.

(** The observable actions of [execute]. *)
Inductive Effect : Type :=
| Callback (err : Exn)
| ServerQuery (ns : string) (findCommand : Document) (options : Document).

Section FindOperation.

(** Collaborators imported by [find.ts]. *)
Variable Collection : Type.
Variable collection_s : Collection -> Document.
Variable MongoDBNamespace : Type.
Variable ns_toString : MongoDBNamespace -> string.
Variable ReadPreference : Type.
Variable ReadPreference_resolve : Collection -> Document -> ReadPreference.
Variable CommandOperation_super : Collection -> Document -> CommandOperationBase.
Variable Server : Type.
Variable server_name : Server -> string.
Variable maxWireVersion : Server -> Z.
Variable formattedOrderClause : JsVal -> JsVal.
Variable normalizeHintField : JsVal -> JsVal.
(** the property key [result[field]] resolves to *)
Variable ToPropertyKey : JsVal -> string.

Record FindOperation : Type := {
  options : Document;
  readConcern : JsVal;
  session : option bool;
  fullResponse : JsVal;
  server : option Server;
  ns : MongoDBNamespace;
  readPreference : ReadPreference;
  filter : JsVal;
  cmd : Document;
  bsonOptions : Document
}.

(** [filter[0] | (filter[1] << 8) | (filter[2] << 16) | (filter[3] << 24)] *)
Definition objectSize (bytes : list Z) : Z :=
  int32_or
    (int32_or
       (int32_or (byte_at bytes 0) (int32_shl (byte_at bytes 1) 8))
       (int32_shl (byte_at bytes 2) 16))
    (int32_shl (byte_at bytes 3) 24).

Definition size_mismatch_message (len size : Z) : string :=
  "query filter raw message size does not match message header size ["
    +:+ pretty len +:+ "] != [" +:+ pretty size +:+ "]".

(** [new FindOperation(collection, ns, filter, options)].  An argument
  that is [undefined] (or omitted) takes the parameter's default. *)
Definition constructor (collection : Collection) (ns_arg : MongoDBNamespace)
    (filter_arg : JsVal) (options_arg : option Document)
  : Completion FindOperation :=
  let filter := match filter_arg with VUndefined => VObject ∅ | v => v end in
  let options := default ∅ options_arg in
  let base := CommandOperation_super collection options in
  let readPreference := ReadPreference_resolve collection (base_options base) in
  if negb (typeof_eq filter "object") || isArray filter then
    Throw (MongoError "Query filter must be a plain object or ObjectId")
  else
    let size_check :=
      match filter with
      | VBuffer bytes =>
          if negb (objectSize bytes =? Z.of_nat (length bytes))%Z then
            Some (TypeError
                    (size_mismatch_message (Z.of_nat (length bytes)) (objectSize bytes)))
          else None
      | _ => None
      end in
    match size_check with
    | Some e => Throw e
    | None =>
        let this_filter :=
          if not_nullish filter && strict_eq_str (get_member filter "_bsontype") "ObjectID"
          then VObject {[ "_id" := filter ]}
          else filter in
        let this_cmd : Document :=
          <[ "query" := this_filter ]> {[ "find" := VStr (ns_toString ns_arg) ]} in
        let s := collection_s collection in
        let this_bsonOptions : Document :=
          <[ "ignoreUndefined" :=
               nullish (get options "ignoreUndefined")
                 (nullish (get s "ignoreUndefined") (VBool false)) ]>
          (<[ "promoteBuffers" :=
               nullish (get options "promoteBuffers")
                 (nullish (get s "promoteBuffers") (VBool false)) ]>
          (<[ "promoteValues" :=
               nullish (get options "promoteValues")
                 (nullish (get s "promoteValues") (VBool true)) ]>
          (<[ "promoteLongs" :=
               nullish (get options "promoteLongs")
                 (nullish (get s "promoteLongs") (VBool true)) ]>
          {[ "raw" :=
               nullish (get options "raw") (nullish (get s "raw") (VBool false)) ]}))) in
        Normal {| options := base_options base;
                  readConcern := base_readConcern base;
                  session := base_session base;
                  fullResponse := base_fullResponse base;
                  server := None;
                  ns := ns_arg;
                  readPreference := readPreference;
                  filter := this_filter;
                  cmd := this_cmd;
                  bsonOptions := this_bsonOptions |}
    end.

Definition set_server (this : FindOperation) (sv : Server) : FindOperation :=
  {| options := options this; readConcern := readConcern this;
     session := session this; fullResponse := fullResponse this;
     server := Some sv; ns := ns this; readPreference := readPreference this;
     filter := filter this; cmd := cmd this; bsonOptions := bsonOptions this |}.

Definition allowDiskUse_message : string :=
  "The `allowDiskUse` option is not supported on MongoDB < 3.2".

Definition collation_message (sv : Server) (serverWireVersion : Z) : string :=
  "Server " +:+ server_name sv +:+ ", which reports wire version "
    +:+ pretty serverWireVersion +:+ ", does not support collation".

(** [execute(server, callback)]: the updated operation and the actions
  performed, in order. *)
Definition execute (this : FindOperation) (server_arg : Server)
  : FindOperation * list Effect :=
  let this := set_server this server_arg in
  let serverWireVersion := maxWireVersion server_arg in
  let options := options this in
  if negb (typeof_eq (get options "allowDiskUse") "undefined")
     && (serverWireVersion <? 4)%Z
  then (this, [Callback (MongoError allowDiskUse_message)])
  else
    (* Object.assign({}, this.cmd) *)
    let findCommand : Document := cmd this in
    let findCommand :=
      assign_when (truthy (get options "sort"))
        "sort" (formattedOrderClause (get options "sort")) findCommand in
    let findCommand :=
      if truthy (get options "projection") || truthy (get options "fields") then
        let projection := js_or (get options "projection") (get options "fields") in
        let projection :=
          if truthy projection && negb (isBuffer projection) && isArray projection then
            match projection with
            | VArray elems =>
                if negb (Nat.eqb (length elems) 0) then
                  VObject
                    (foldl (fun result field => <[ ToPropertyKey field := VNum 1 ]> result)
                       ∅ elems)
                else VObject {[ "_id" := VNum 1 ]}
            | other => other
            end
          else projection in
        <[ "fields" := projection ]> findCommand
      else findCommand in
    let findCommand :=
      assign_when (truthy (get options "hint"))
        "hint" (normalizeHintField (get options "hint")) findCommand in
    let findCommand :=
      assign_when (typeof_eq (get options "skip") "number")
        "skip" (get options "skip") findCommand in
    let findCommand :=
      assign_when (typeof_eq (get options "limit") "number")
        "limit" (get options "limit") findCommand in
    let findCommand :=
      assign_when (typeof_eq (get options "batchSize") "number")
        "batchSize" (get options "batchSize") findCommand in
    let findCommand :=
      assign_when (typeof_eq (get options "singleBatch") "boolean")
        "singleBatch" (get options "singleBatch") findCommand in
    let findCommand :=
      assign_when (truthy (get options "comment"))
        "comment" (get options "comment") findCommand in
    let findCommand :=
      assign_when (typeof_eq (get options "maxTimeMS") "number")
        "maxTimeMS" (get options "maxTimeMS") findCommand in
    let findCommand :=
      assign_when
        (truthy (readConcern this)
         && match session this with
            | None => true
            | Some inTransaction => negb inTransaction
            end)
        "readConcern" (readConcern this) findCommand in
    let findCommand :=
      assign_when (truthy (get options "max")) "max" (get options "max") findCommand in
    let findCommand :=
      assign_when (truthy (get options "min")) "min" (get options "min") findCommand in
    let findCommand :=
      assign_when (typeof_eq (get options "returnKey") "boolean")
        "returnKey" (get options "returnKey") findCommand in
    let findCommand :=
      assign_when (typeof_eq (get options "showRecordId") "boolean")
        "showRecordId" (get options "showRecordId") findCommand in
    let findCommand :=
      assign_when (typeof_eq (get options "tailable") "boolean")
        "tailable" (get options "tailable") findCommand in
    let findCommand :=
      assign_when (typeof_eq (get options "oplogReplay") "boolean")
        "oplogReplay" (get options "oplogReplay") findCommand in
    let findCommand :=
      if typeof_eq (get options "timeout") "boolean" then
        <[ "noCursorTimeout" := get options "timeout" ]> findCommand
      else if typeof_eq (get options "noCursorTimeout") "boolean" then
        <[ "noCursorTimeout" := get options "noCursorTimeout" ]> findCommand
      else findCommand in
    let findCommand :=
      if typeof_eq (get options "awaitData") "boolean" then
        <[ "awaitData" := get options "awaitData" ]> findCommand
      else if typeof_eq (get options "awaitdata") "boolean" then
        <[ "awaitData" := get options "awaitdata" ]> findCommand
      else findCommand in
    let findCommand :=
      if typeof_eq (get options "allowPartialResults") "boolean" then
        <[ "allowPartialResults" := get options "allowPartialResults" ]> findCommand
      else if typeof_eq (get options "partial") "boolean" then
        <[ "allowPartialResults" := get options "partial" ]> findCommand
      else findCommand in
    if truthy (get options "collation")
       && (serverWireVersion <? SUPPORTS_WRITE_CONCERN_AND_COLLATION)%Z
    then
      (this, [Callback (MongoError (collation_message server_arg serverWireVersion))])
    else
      let findCommand :=
        assign_when (truthy (get options "collation"))
          "collation" (get options "collation") findCommand in
      let findCommand :=
        assign_when (typeof_eq (get options "allowDiskUse") "boolean")
          "allowDiskUse" (get options "allowDiskUse") findCommand in
      let findCommand :=
        assign_when (typeof_eq (get options "snapshot") "boolean")
          "snapshot" (get options "snapshot") findCommand in
      let findCommand :=
        assign_when (typeof_eq (get options "showDiskLoc") "boolean")
          "showDiskLoc" (get options "showDiskLoc") findCommand in
      (* { fullResult: !!this.fullResponse, ...this.options, ...this.bsonOptions } *)
      let queryOptions : Document :=
        bsonOptions this ∪ (options ∪ {[ "fullResult" := VBool (truthy (fullResponse this)) ]}) in
      (this, [ServerQuery (ns_toString (ns this)) findCommand queryOptions]).

End FindOperation.

Arguments options {_ _ _} _.
Arguments readConcern {_ _ _} _.
Arguments session {_ _ _} _.
Arguments fullResponse {_ _ _} _.
Arguments server {_ _ _} _.
Arguments ns {_ _ _} _.
Arguments readPreference {_ _ _} _.
Arguments filter {_ _ _} _.
Arguments cmd {_ _ _} _.
Arguments bsonOptions {_ _ _} _.

(** The translation table of a pair of options, as the specification
    words it: the value of the first option when that is a boolean,
    otherwise the value of the second when that is a boolean, otherwise
    absent. *)
Definition first_boolean (first second : JsVal) : option JsVal :=
  match first, second with
  | VBool b, _ => Some (VBool b)
  | _, VBool b => Some (VBool b)
  | _, _ => None
  end.

Definition awaitData_table (options : Document) : option JsVal :=
  first_boolean (get options "awaitData") (get options "awaitdata").

Definition noCursorTimeout_table (options : Document) : option JsVal :=
  first_boolean (get options "timeout") (get options "noCursorTimeout").

Definition allowPartialResults_table (options : Document) : option JsVal :=
  first_boolean (get options "allowPartialResults") (get options "partial").

(** The two conditions under which [execute] reports an error instead of
    querying the server. *)
Definition allowDiskUse_guard (options : Document) (serverWireVersion : Z) : bool :=
  negb (typeof_eq (get options "allowDiskUse") "undefined")
  && (serverWireVersion <? 4)%Z.

Definition collation_guard (options : Document) (serverWireVersion : Z) : bool :=
  truthy (get options "collation")
  && (serverWireVersion <? SUPPORTS_WRITE_CONCERN_AND_COLLATION)%Z.

(** A concrete choice of the collaborators, to run the model on examples:
    a collection is its [s] settings, a namespace a pair of names, a
    server its name and wire version; [super] copies the options. *)
Module Sample.
Definition Collection : Type := Document.
Definition collection_s (c : Collection) : Document := c.
Definition MongoDBNamespace : Type := (string * string)%type.
Definition ns_toString (n : MongoDBNamespace) : string := n.1 +:+ "." +:+ n.2.
Definition ReadPreference : Type := string.
Definition ReadPreference_resolve (c : Collection) (o : Document) : ReadPreference :=
  "primary".
Definition CommandOperation_super (c : Collection) (o : Document) : CommandOperationBase :=
  {| base_options := o; base_readConcern := VUndefined;
     base_session := None; base_fullResponse := VUndefined |}.
Definition Server : Type := (string * Z)%type.
Definition server_name (sv : Server) : string := sv.1.
Definition maxWireVersion (sv : Server) : Z := sv.2.
Definition formattedOrderClause (v : JsVal) : JsVal := v.
Definition normalizeHintField (v : JsVal) : JsVal := v.
Definition ToPropertyKey (v : JsVal) : string :=
  match v with VStr k => k | _ => "" end.

Definition constructor :=
  constructor Collection collection_s MongoDBNamespace ns_toString ReadPreference
    ReadPreference_resolve CommandOperation_super Server.
Definition execute :=
  execute MongoDBNamespace ns_toString ReadPreference Server server_name
    maxWireVersion formattedOrderClause normalizeHintField ToPropertyKey.

Definition test_ns : MongoDBNamespace := ("db", "coll").
Definition test_server : Server := ("localhost:27017", 6%Z).
Definition old_server : Server := ("localhost:27018", 3%Z).

Definition test_options : Document :=
  {[ "awaitdata" := VBool true;
     "awaitData" := VNum 1;
     "timeout" := VBool false;
     "noCursorTimeout" := VBool true;
     "allowPartialResults" := VBool true;
     "partial" := VBool false ]}.

(** [new FindOperation(collection, ns, {}, test_options)] *)
Definition test_op : FindOperation MongoDBNamespace ReadPreference Server :=
  {| options := test_options; readConcern := VUndefined; session := None;
     fullResponse := VUndefined; server := None; ns := test_ns;
     readPreference := "primary"; filter := VObject ∅;
     cmd := <[ "query" := VObject ∅ ]> {[ "find" := VStr "db.coll" ]};
     bsonOptions :=
       {[ "raw" := VBool false; "promoteLongs" := VBool true;
          "promoteValues" := VBool true; "promoteBuffers" := VBool false;
          "ignoreUndefined" := VBool false ]} |}.

(** The command and the options [test_op] sends to [test_server]. *)
Definition test_findCommand : Document :=
  match (execute test_op test_server).2 with
  | [ServerQuery _ findCommand _] => findCommand
  | _ => ∅
  end.

Definition test_queryOptions : Document :=
  match (execute test_op test_server).2 with
  | [ServerQuery _ _ queryOptions] => queryOptions
  | _ => ∅
  end.

(** An operation with [allowDiskUse] and [collation] set. *)
Definition collation_op : FindOperation MongoDBNamespace ReadPreference Server :=
  {| options := {[ "collation" := VObject {[ "locale" := VStr "en" ]};
                   "allowDiskUse" := VBool true ]};
     readConcern := VUndefined; session := None;
     fullResponse := VUndefined; server := None; ns := test_ns;
     readPreference := "primary"; filter := VObject ∅;
     cmd := <[ "query" := VObject ∅ ]> {[ "find" := VStr "db.coll" ]};
     bsonOptions := ∅ |}.

(** An ObjectId, as a filter. *)
Definition objectId : JsVal :=
  VObject {[ "_bsontype" := VStr "ObjectID"; "id" := VStr "5f1b" ]}.
End Sample.

End Find.

(** ** src/cmap/auth/defaultAuthProviders.ts *)
Module Auth.

Inductive AuthMechanism : Type :=
| MONGODB_AWS
| MONGODB_CR
| MONGODB_DEFAULT
| MONGODB_GSSAPI
| MONGODB_PLAIN
| MONGODB_SCRAM_SHA1
| MONGODB_SCRAM_SHA256
| MONGODB_X509.

(** The string value of each enum member. *)
Definition mechanism_id (m : AuthMechanism) : string :=
  match m with
  | MONGODB_AWS => "MONGODB-AWS"
  | MONGODB_CR => "MONGODB-CR"
  | MONGODB_DEFAULT => "DEFAULT"
  | MONGODB_GSSAPI => "GSSAPI"
  | MONGODB_PLAIN => "PLAIN"
  | MONGODB_SCRAM_SHA1 => "SCRAM-SHA-1"
  | MONGODB_SCRAM_SHA256 => "SCRAM-SHA-256"
  | MONGODB_X509 => "MONGODB-X509"
  end.

(** The provider classes the module imports. *)
Inductive ProviderClass : Type :=
| MongoCR | X509 | Plain | GSSAPI | ScramSHA1 | ScramSHA256 | MongoDBAWS.

(** Objects live in a store and are handed around by reference, so that
    "the same object" is a statement about references. *)
Abbreviation Ref := nat.

Inductive HeapObject : Type :=
| ProviderInstance (cls : ProviderClass)      (* [new Cls()] *)
| PlainObject (fields : gmap string Ref).     (* an object literal *)

Abbreviation Store := (list HeapObject).

(** Allocation: the new object takes the next free reference. *)
Definition alloc (o : HeapObject) (st : Store) : Ref * Store :=
  (length st, (st ++ [o])%list).

(** [obj[key] = value] on a plain object. *)
Definition define_property (obj : Ref) (key : string) (value : Ref) (st : Store) : Store :=
  match st !! obj with
  | Some (PlainObject fields) => <[ obj := PlainObject (<[ key := value ]> fields) ]> st
  | _ => st
  end.

(** One entry [[key]: new Cls()] of the object literal. *)
Definition define_provider (obj : Ref) (key : AuthMechanism) (cls : ProviderClass)
    (st : Store) : Store :=
  let '(instance, st) := alloc (ProviderInstance cls) st in
  define_property obj (mechanism_id key) instance st.

(** Evaluation of the module body: the object literal bound to the constant
    [AUTH_PROVIDERS].  Returns the binding and the store. *)
Definition module_body (st : Store) : Ref * Store :=
  let '(AUTH_PROVIDERS, st) := alloc (PlainObject ∅) st in
  let st := define_provider AUTH_PROVIDERS MONGODB_AWS MongoDBAWS st in
  let st := define_provider AUTH_PROVIDERS MONGODB_CR MongoCR st in
  let st := define_provider AUTH_PROVIDERS MONGODB_GSSAPI GSSAPI st in
  let st := define_provider AUTH_PROVIDERS MONGODB_PLAIN Plain st in
  let st := define_provider AUTH_PROVIDERS MONGODB_SCRAM_SHA1 ScramSHA1 st in
  let st := define_provider AUTH_PROVIDERS MONGODB_SCRAM_SHA256 ScramSHA256 st in
  let st := define_provider AUTH_PROVIDERS MONGODB_X509 X509 st in
  (AUTH_PROVIDERS, st).

(** [defaultAuthProviders()], in a module whose constant is bound to
    [AUTH_PROVIDERS]: returns the reference, leaves the store alone. *)
Definition defaultAuthProviders (AUTH_PROVIDERS : Ref) (st : Store) : Ref * Store :=
  (AUTH_PROVIDERS, st).

(** The registry a reference denotes in a store. *)
Definition registry_at (r : Ref) (st : Store) : option (gmap string Ref) :=
  match st !! r with
  | Some (PlainObject fields) => Some fields
  | _ => None
  end.

(** The class of the provider stored under a mechanism identifier. *)
Definition provider_class (r : Ref) (key : string) (st : Store) : option ProviderClass :=
  fields ← registry_at r st;
  inst ← fields !! key;
  match st !! inst with
  | Some (ProviderInstance cls) => Some cls
  | _ => None
  end.

(** The fields the object literal gives a registry allocated at reference
    [r]: the providers are the seven objects allocated after it. *)
Definition registry_fields (r : Ref) : gmap string Ref :=
  <[ "MONGODB-X509" := (r + 7)%nat ]>
  (<[ "SCRAM-SHA-256" := (r + 6)%nat ]>
  (<[ "SCRAM-SHA-1" := (r + 5)%nat ]>
  (<[ "PLAIN" := (r + 4)%nat ]>
  (<[ "GSSAPI" := (r + 3)%nat ]>
  (<[ "MONGODB-CR" := (r + 2)%nat ]>
  (<[ "MONGODB-AWS" := (r + 1)%nat ]> ∅)))))).

(** The concrete mechanisms: every enum member but [DEFAULT]. *)
Definition concrete (m : AuthMechanism) : bool :=
  match m with MONGODB_DEFAULT => false | _ => true end.

(** The provider class that implements a concrete mechanism. *)
Definition class_of (m : AuthMechanism) : option ProviderClass :=
  match m with
  | MONGODB_AWS => Some MongoDBAWS
  | MONGODB_CR => Some MongoCR
  | MONGODB_DEFAULT => None
  | MONGODB_GSSAPI => Some GSSAPI
  | MONGODB_PLAIN => Some Plain
  | MONGODB_SCRAM_SHA1 => Some ScramSHA1
  | MONGODB_SCRAM_SHA256 => Some ScramSHA256
  | MONGODB_X509 => Some X509
  end.

End Auth.

(** ** Authentication handshake, step 1 *)
Module Handshake.
Import Auth.

Inductive HandshakeError : Type :=
| UnsupportedMechanism.

(** Modelled from the spec: the capability-exchange step of the
    authentication handshake (its code is not in the two files above).
    [offered] is the set of mechanisms the server's response carries for
    the configured principal.  A client configured with [DEFAULT] selects
    SCRAM-SHA-256 if offered, else SCRAM-SHA-1 if offered, else fails; any
    other configured mechanism is used as it is. *)
Definition selectMechanism (configured : AuthMechanism) (offered : gset string)
  : HandshakeError + AuthMechanism :=
  match configured with
  | MONGODB_DEFAULT =>
      if decide (mechanism_id MONGODB_SCRAM_SHA256 ∈ offered) then inr MONGODB_SCRAM_SHA256
      else if decide (mechanism_id MONGODB_SCRAM_SHA1 ∈ offered) then inr MONGODB_SCRAM_SHA1
      else inl UnsupportedMechanism
  | m => inr m
  end.

End Handshake.

(** ** Server discovery and monitoring: the data model and the topology
       state machine *)
Module Sdam.

(** Modelled from the spec: the observed roles and the topology types of
    the data model. *)
Inductive ServerType : Type :=
| Unknown | Standalone | RSPrimary | RSSecondary | RSArbiter | RSGhost
| Mongos | LoadBalancer.

Inductive TopologyType : Type :=
| Single | ReplicaSetWithPrimary | ReplicaSetNoPrimary | Sharded
| TopologyUnknown | LoadBalanced.

Abbreviation Address := string.

(** [(processId, counter)] *)
Abbreviation TopologyVersion := (N * N)%type.

(** Modelled from the spec: the ServerDescription of the data model (the
    driver's own class is not in the files above).  Latency is in
    milliseconds. *)
Record ServerDescription : Type := {
  address : Address;
  role : ServerType;
  latency : Q;
  minWireVersion : Z;
  maxWireVersion : Z;
  setName : option string;
  setVersion : N;
  electionId : N;
  lastError : option string;
  topologyVersion : TopologyVersion
}.

(** Modelled from the spec: the TopologyDescription of the data model,
    limited to the topology type and the map from address to the latest
    ServerDescription. *)
Record TopologyDescription : Type := {
  type : TopologyType;
  servers : gmap Address ServerDescription
}.

Definition is_primary (sd : ServerDescription) : bool :=
  match role sd with RSPrimary => true | _ => false end.

(** Modelled from the spec: "newer" on topology versions, the order of the
    pairs [(processId, counter)]. *)
Definition tv_ltb (a b : TopologyVersion) : bool :=
  (a.1 <? b.1)%N || ((a.1 =? b.1)%N && (a.2 <? b.2)%N).

Definition newer (incoming stored : ServerDescription) : bool :=
  tv_ltb (topologyVersion stored) (topologyVersion incoming).

(** Modelled from the spec: "older" on [(setVersion, electionId)] pairs. *)
Definition older (a b : ServerDescription) : bool :=
  (setVersion a <? setVersion b)%N
  || ((setVersion a =? setVersion b)%N && (electionId a <? electionId b)%N).

(** Modelled from the spec: demotion replaces the description by one of
    role [Unknown]. *)
Definition demote (sd : ServerDescription) : ServerDescription :=
  {| address := address sd; role := Unknown; latency := latency sd;
     minWireVersion := minWireVersion sd; maxWireVersion := maxWireVersion sd;
     setName := setName sd; setVersion := setVersion sd;
     electionId := electionId sd; lastError := lastError sd;
     topologyVersion := topologyVersion sd |}.

Definition has_role (r : ServerType) (sd : ServerDescription) : bool :=
  match r, role sd with
  | Unknown, Unknown | Standalone, Standalone | RSPrimary, RSPrimary
  | RSSecondary, RSSecondary | RSArbiter, RSArbiter | RSGhost, RSGhost
  | Mongos, Mongos | LoadBalancer, LoadBalancer => true
  | _, _ => false
  end.

(** Modelled from the spec: the aggregate topology type, by the rules keyed
    on the observed roles. *)
Definition classify (m : gmap Address ServerDescription) : TopologyType :=
  let sds := (map_to_list m).*2 in
  if existsb (has_role RSPrimary) sds then ReplicaSetWithPrimary
  else if forallb (has_role Standalone) sds && (length sds =? 1)%nat then Single
  else if existsb (has_role Mongos) sds && negb (existsb (has_role RSSecondary) sds)
  then Sharded
  else if forallb (fun sd => has_role RSSecondary sd || has_role RSArbiter sd) sds
          && negb (length sds =? 0)%nat
  then ReplicaSetNoPrimary
  else TopologyUnknown.

(** Modelled from the spec: the primary currently recorded, at an address
    other than [a], if any. *)
Definition recordedPrimary (m : gmap Address ServerDescription) (a : Address)
  : option (Address * ServerDescription) :=
  snd <$> list_find (fun kv => kv.1 <> a /\ is_primary kv.2 = true) (map_to_list m).

(** Modelled from the spec: one step of the topology state machine.  The
    result is the TopologyDescription to publish and the addresses whose
    monitor is asked to re-check immediately.  An update is discarded when
    a description is stored for its address and the update is not newer;
    otherwise it replaces the entry.  If it reports a primary while another
    address is the recorded primary, the one with the older
    [(setVersion, electionId)] is demoted (the recorded one when the pairs
    are equal).  Membership changes reported by a primary are not part of
    the model: the data model gives a ServerDescription no member list. *)
Definition onServerDescription (td : TopologyDescription) (sd : ServerDescription)
  : TopologyDescription * list Address :=
  let stale :=
    match servers td !! address sd with
    | Some stored => negb (newer sd stored)
    | None => false
    end in
  if stale then (td, [])
  else
    let '(servers', recheck) :=
      if is_primary sd then
        match recordedPrimary (servers td) (address sd) with
        | Some (a, p) =>
            if older sd p then
              (<[ address sd := demote sd ]> (servers td), [address sd])
            else
              (<[ a := demote p ]> (<[ address sd := sd ]> (servers td)), [a])
        | None => (<[ address sd := sd ]> (servers td), [])
        end
      else (<[ address sd := sd ]> (servers td), []) in
    ({| type := classify servers'; servers := servers' |}, recheck).

Definition initial : TopologyDescription :=
  {| type := TopologyUnknown; servers := ∅ |}.


Fixpoint published (td : TopologyDescription) (updates : list ServerDescription)
  : list TopologyDescription :=
  match updates with
  | [] => [td]
  | sd :: rest => td :: published (onServerDescription td sd).1 rest
  end.

(** At most one server is classified [RSPrimary]. *)
Definition at_most_one_primary (td : TopologyDescription) : Prop :=
  forall a b sa sb,
    servers td !! a = Some sa -> servers td !! b = Some sb ->
    is_primary sa = true -> is_primary sb = true -> a = b.






(** The ways an update that is not discarded changes the map, with the
    re-check requests it issues. *)
Inductive StepCase (td : TopologyDescription) (sd : ServerDescription)
  : gmap Address ServerDescription -> list Address -> Prop :=
| StepStore :
    (is_primary sd = false
     \/ forall a p, servers td !! a = Some p -> a <> address sd -> is_primary p = false) ->
    StepCase td sd (<[ address sd := sd ]> (servers td)) []
| StepRejectIncoming a p :
    is_primary sd = true -> servers td !! a = Some p -> a <> address sd ->
    is_primary p = true -> older sd p = true ->
    StepCase td sd (<[ address sd := demote sd ]> (servers td)) [address sd]
| StepDemoteRecorded a p :
    is_primary sd = true -> servers td !! a = Some p -> a <> address sd ->
    is_primary p = true -> older sd p = false ->
    StepCase td sd (<[ a := demote p ]> (<[ address sd := sd ]> (servers td))) [a].


(** Example updates. *)
Definition report (a : Address) (r : ServerType) (sv eid : N) (tv : TopologyVersion)
  : ServerDescription :=
  {| address := a; role := r; latency := 5; minWireVersion := 0;
     maxWireVersion := 9; setName := Some "rs0"; setVersion := sv;
     electionId := eid; lastError := None; topologyVersion := tv |}.

Definition primary_a : ServerDescription := report "a:27017" RSPrimary 1 1 (1, 1)%N.
Definition primary_b : ServerDescription := report "b:27017" RSPrimary 2 2 (1, 1)%N.

(** The topology in which [b] is the recorded primary. *)
Definition topology_b : TopologyDescription := (onServerDescription initial primary_b).1.

End Sdam.

(** ** Server selection: latency narrowing *)
Module Selector.
Import Sdam.

Definition DEFAULT_WINDOW : Q := 15.

(** Modelled from the spec: the minimum observed latency among the
    eligible servers, [first] and [rest]. *)
Definition minLatency (first : ServerDescription) (rest : list ServerDescription) : Q :=
  foldl (fun low sd => if Qle_bool (latency sd) low then latency sd else low)
    (latency first) rest.

(** Modelled from the spec: latency narrowing.  Computes the minimum
    observed latency among the eligible servers and keeps every server
    within [window] above that minimum. *)
Definition latencyNarrow (window : Q) (eligible : list ServerDescription)
  : list ServerDescription :=
  match eligible with
  | [] => []
  | first :: rest =>
      let low := minLatency first rest in
      List.filter (fun sd => Qle_bool (latency sd) (low + window)) eligible
  end.

(** The example of the specification: eligible servers at 5, 6, 18 and
    20 ms. *)
Definition server_at (a : Address) (ms : Q) : ServerDescription :=
  {| address := a; role := RSSecondary; latency := ms;
     minWireVersion := 0; maxWireVersion := 9; setName := Some "rs0";
     setVersion := 1; electionId := 1; lastError := None;
     topologyVersion := (1%N, 1%N) |}.

Definition example_eligible : list ServerDescription :=
  [server_at "a:27017" 5; server_at "b:27017" 6;
   server_at "c:27017" 18; server_at "d:27017" 20].

End Selector.

(** ** Connection pool *)
Module Pool.

(** Modelled from the spec: a Connection of the data model.  The socket
    handle is an identifier, the authentication context is whether the
    handshake has completed, time is a counter. *)
Record Connection : Type := {
  socket : nat;
  generation : nat;
  authenticated : bool;
  lastUse : nat;
  inUse : bool
}.

(** Modelled from the spec: the per-server Pool of the data model. *)
Record Pool : Type := {
  pool_generation : nat;
  idle : list Connection;
  size : nat;
  minSize : nat;
  maxSize : nat;
  maxIdleTime : nat;
  waitQueue : list nat;
  nextSocket : nat
}.

Inductive PoolError : Type :=
| PoolTimeout | PoolCleared | AuthError.

Inductive CheckoutResult : Type :=
| Reused (c : Connection)      (* an idle connection, removed from the idle set *)
| Created (c : Connection)     (* a new connection, handshake completed *)
| Blocked                      (* the request waits on the queue *)
| Failed (e : PoolError).

(** The connection a checkout hands to its caller, if any. *)
Definition returned (r : CheckoutResult) : option Connection :=
  match r with
  | Reused c | Created c => Some c
  | Blocked | Failed _ => None
  end.

Definition with_idle (p : Pool) (l : list Connection) (sz : nat) : Pool :=
  {| pool_generation := pool_generation p; idle := l; size := sz;
     minSize := minSize p; maxSize := maxSize p; maxIdleTime := maxIdleTime p;
     waitQueue := waitQueue p; nextSocket := nextSocket p |}.

Definition with_waitQueue (p : Pool) (q : list nat) : Pool :=
  {| pool_generation := pool_generation p; idle := idle p; size := size p;
     minSize := minSize p; maxSize := maxSize p; maxIdleTime := maxIdleTime p;
     waitQueue := q; nextSocket := nextSocket p |}.

Definition mark (c : Connection) (now : nat) (used : bool) : Connection :=
  {| socket := socket c; generation := generation c;
     authenticated := authenticated c; lastUse := now; inUse := used |}.

(** Modelled from the spec: opening a connection for the pool's current
    generation; the full authentication handshake either completes or the
    connection is destroyed. *)
Definition open (p : Pool) (now : nat) (handshake_ok : bool) : option Connection * Pool :=
  let p' :=
    {| pool_generation := pool_generation p; idle := idle p; size := size p;
       minSize := minSize p; maxSize := maxSize p; maxIdleTime := maxIdleTime p;
       waitQueue := waitQueue p; nextSocket := S (nextSocket p) |} in
  if handshake_ok then
    (Some {| socket := nextSocket p; generation := pool_generation p;
             authenticated := true; lastUse := now; inUse := false |}, p')
  else (None, p').

(** Modelled from the spec: [checkout].  [handshake_ok] tells whether the
    handshake of a connection opened by this call succeeds; [request]
    identifies the caller on the wait queue. *)
Definition checkout (request now : nat) (handshake_ok : bool) (p : Pool)
  : CheckoutResult * Pool :=
  match list_find (fun c => generation c = pool_generation p) (idle p) with
  | Some (i, c) =>
      (Reused (mark c now true), with_idle p (delete i (idle p)) (size p))
  | None =>
      if (size p <? maxSize p)%nat then
        match open p now handshake_ok with
        | (Some c, p') => (Created (mark c now true), with_idle p' (idle p') (S (size p')))
        | (None, p') => (Failed AuthError, p')
        end
      else (Blocked, with_waitQueue p (waitQueue p ++ [request])%list)
  end.

(** Modelled from the spec: a blocked request whose deadline elapses
    leaves the queue with a pool-timeout error. *)
Definition expire (request : nat) (p : Pool) : CheckoutResult * Pool :=
  (Failed PoolTimeout,
   with_waitQueue p (List.filter (fun r => negb (r =? request)%nat) (waitQueue p))).

(** Modelled from the spec: [checkin].  Returns the request that is woken,
    if any. *)
Definition checkin (c : Connection) (healthy : bool) (now : nat) (p : Pool)
  : option nat * Pool :=
  let p' :=
    if (generation c =? pool_generation p)%nat && healthy then
      with_idle p (idle p ++ [mark c now false])%list (size p)
    else with_idle p (idle p) (pred (size p)) in
  (head (waitQueue p'), with_waitQueue p' (tail (waitQueue p'))).

(** Modelled from the spec: [clear] increments the generation; the idle
    connections are destroyed asynchronously, by [drain]. *)
Definition clear (p : Pool) : Pool :=
  {| pool_generation := S (pool_generation p); idle := idle p; size := size p;
     minSize := minSize p; maxSize := maxSize p; maxIdleTime := maxIdleTime p;
     waitQueue := waitQueue p; nextSocket := nextSocket p |}.

(** Modelled from the spec: the asynchronous destruction of the idle
    connections a [clear] has made stale. *)
Definition is_current (p : Pool) (c : Connection) : bool :=
  (generation c =? pool_generation p)%nat.

Definition drain (p : Pool) : Pool :=
  let kept := List.filter (is_current p) (idle p) in
  with_idle p kept (size p - (length (idle p) - length kept))%nat.

(** Modelled from the spec: one round of the minimum-size maintainer. *)
Definition maintain (now : nat) (handshake_ok : bool) (p : Pool) : Pool :=
  if (length (idle p) <? minSize p)%nat then
    match open p now handshake_ok with
    | (Some c, p') => with_idle p' (idle p' ++ [c])%list (S (size p'))
    | (None, p') => p'
    end
  else p.

(** Modelled from the spec: one round of the idle reaper; it closes idle
    connections past the max-idle time while more than the minimum remain. *)
Fixpoint reap_list (now maxIdle keep : nat) (l : list Connection) : list Connection :=
  match l with
  | [] => []
  | c :: rest =>
      if (keep <? length l)%nat && (lastUse c + maxIdle <? now)%nat
      then reap_list now maxIdle keep rest
      else c :: reap_list now maxIdle (pred keep) rest
  end.

Definition reap (now : nat) (p : Pool) : Pool :=
  let kept := reap_list now (maxIdleTime p) (minSize p) (idle p) in
  with_idle p kept (size p - (length (idle p) - length kept))%nat.

(** The operations performed on a pool. *)
Inductive Op : Type :=
| OpCheckout (request now : nat) (handshake_ok : bool)
| OpExpire (request : nat)
| OpCheckin (c : Connection) (healthy : bool) (now : nat)
| OpClear
| OpDrain
| OpMaintain (now : nat) (handshake_ok : bool)
| OpReap (now : nat).

Definition step (p : Pool) (o : Op) : Pool :=
  match o with
  | OpCheckout request now h => (checkout request now h p).2
  | OpExpire request => (expire request p).2
  | OpCheckin c healthy now => (checkin c healthy now p).2
  | OpClear => clear p
  | OpDrain => drain p
  | OpMaintain now h => maintain now h p
  | OpReap now => reap now p
  end.

Definition create (minSz maxSz maxIdle : nat) : Pool :=
  {| pool_generation := 0; idle := []; size := 0; minSize := minSz;
     maxSize := maxSz; maxIdleTime := maxIdle; waitQueue := []; nextSocket := 0 |}.

(** No idle connection is newer than the pool. *)
Definition idle_not_newer (p : Pool) : Prop :=
  Forall (fun c => (generation c <= pool_generation p)%nat) (idle p).

(** A pool of generation 3 with one idle connection and room for another. *)
Definition example_pool : Pool :=
  {| pool_generation := 3;
     idle := [{| socket := 7; generation := 3; authenticated := true;
                 lastUse := 40; inUse := false |}];
     size := 1; minSize := 0; maxSize := 2; maxIdleTime := 1000;
     waitQueue := []; nextSocket := 8 |}.

End Pool.

(** ** Further definitions for src/operations/find.ts *)
Module FindCommand.
Import Find.

(** The fields [execute] may assign on the find command, in source order. *)
Definition assigned_keys : list string :=
  [ "sort"; "fields"; "hint"; "skip"; "limit"; "batchSize"; "singleBatch";
    "comment"; "maxTimeMS"; "readConcern"; "max"; "min"; "returnKey";
    "showRecordId"; "tailable"; "oplogReplay"; "noCursorTimeout"; "awaitData";
    "allowPartialResults"; "collation"; "allowDiskUse"; "snapshot";
    "showDiskLoc" ].

(** The options copied when [typeof] is ['number']. *)
Definition number_keys : list string := [ "skip"; "limit"; "batchSize"; "maxTimeMS" ].

(** The options copied when [typeof] is ['boolean'], under their own name. *)
Definition boolean_keys : list string :=
  [ "singleBatch"; "returnKey"; "showRecordId"; "tailable"; "oplogReplay";
    "allowDiskUse"; "snapshot"; "showDiskLoc" ].

(** The options copied when they are truthy. *)
Definition truthy_keys : list string := [ "comment"; "max"; "min"; "collation" ].

(** The five BSON serialization options the constructor resolves, with
    their defaults. *)
Definition bson_defaults : list (string * bool) :=
  [ ("raw", false); ("promoteLongs", true); ("promoteValues", true);
    ("promoteBuffers", false); ("ignoreUndefined", false) ].

(** The little-endian value of the first four bytes of a Buffer; bytes
    past the end count as zero. *)
Definition header_value (bytes : list Z) : Z :=
  byte_at bytes 0 + 2 ^ 8 * byte_at bytes 1 + 2 ^ 16 * byte_at bytes 2
  + 2 ^ 24 * byte_at bytes 3.

(** The bytes a Buffer can hold. *)
Definition is_byte (b : Z) : Prop := 0 <= b < 256.

(** A second environment for examples: [super] leaves a read concern, a
    session that is in a transaction and a truthy [fullResponse]. *)
Definition txn_super (c : Sample.Collection) (o : Document) : CommandOperationBase :=
  {| base_options := o;
     base_readConcern := VObject {[ "level" := VStr "majority" ]};
     base_session := Some true;
     base_fullResponse := VBool true |}.

Definition rich_constructor :=
  constructor Sample.Collection Sample.collection_s Sample.MongoDBNamespace
    Sample.ns_toString Sample.ReadPreference Sample.ReadPreference_resolve
    txn_super Sample.Server.

Definition rich_collection : Sample.Collection :=
  {[ "raw" := VBool true; "promoteLongs" := VNull; "promoteBuffers" := VBool true ]}.

Definition rich_options : Document :=
  {[ "projection" := VArray [VStr "a"; VStr "b"; VStr "a"];
     "fields" := VObject {[ "c" := VNum 1 ]};
     "skip" := VNum 0;
     "limit" := VNaN;
     "min" := VNum 0;
     "max" := VNum 9;
     "tailable" := VNum 1;
     "returnKey" := VBool true;
     "collation" := VObject {[ "locale" := VStr "en" ]};
     "allowDiskUse" := VBool false;
     "raw" := VBool false;
     "fullResult" := VStr "mine";
     "foo" := VStr "bar" ]}.

(** [new FindOperation(rich_collection, ns, {}, rich_options)] *)
Definition rich_op : FindOperation Sample.MongoDBNamespace Sample.ReadPreference Sample.Server :=
  match rich_constructor rich_collection Sample.test_ns (VObject ∅) (Some rich_options) with
  | Normal op => op
  | Throw _ => Sample.test_op
  end.

(** The command and the options [rich_op] sends to [Sample.test_server]. *)
Definition rich_findCommand : Document :=
  match (Sample.execute rich_op Sample.test_server).2 with
  | [ServerQuery _ findCommand _] => findCommand
  | _ => ∅
  end.

Definition rich_queryOptions : Document :=
  match (Sample.execute rich_op Sample.test_server).2 with
  | [ServerQuery _ _ queryOptions] => queryOptions
  | _ => ∅
  end.

(** A BSON document of five bytes with its length header, as a Buffer. *)
Definition raw_filter : list Z := [5; 0; 0; 0; 0].

End FindCommand.

(** * Properties of src/operations/find.ts *)
Module FindFacts.
Import Find.

Lemma typeof_eq_boolean v : typeof_eq v "boolean" = true <-> exists b, v = VBool b.
Proof.
  split.
  - destruct v; try (intros [=]). eauto.
  - intros [b ->]. reflexivity.
Qed.

Lemma typeof_eq_undefined v : typeof_eq v "undefined" = true <-> v = VUndefined.
Proof. destruct v; unfold typeof_eq; simpl; split; congruence. Qed.

Lemma lookup_assign_when_ne c k v (o : Document) k' :
  k <> k' -> assign_when c k v o !! k' = o !! k'.
Proof. intros Hne. unfold assign_when. destruct c; [by rewrite lookup_insert_ne|done]. Qed.

Lemma lookup_if_insert_ne (c : bool) k v (o : Document) k' :
  k <> k' -> (if c then <[ k := v ]> o else o) !! k' = o !! k'.
Proof. intros Hne. destruct c; by rewrite ?lookup_insert_ne. Qed.

Lemma lookup_else_if_ne (c1 c2 : bool) k v1 v2 (o : Document) k' :
  k <> k' ->
  (if c1 then <[ k := v1 ]> o else if c2 then <[ k := v2 ]> o else o) !! k' = o !! k'.
Proof. intros Hne. destruct c1, c2; by rewrite ?lookup_insert_ne. Qed.

(** An [if / else if] pair of assignments to a field that is not yet set
    implements the translation table. *)
Lemma lookup_else_if_eq (v1 v2 : JsVal) k (o : Document) :
  o !! k = None ->
  (if typeof_eq v1 "boolean" then <[ k := v1 ]> o
   else if typeof_eq v2 "boolean" then <[ k := v2 ]> o else o) !! k
  = first_boolean v1 v2.
Proof.
  intros Hk. destruct v1; simpl; try (by rewrite lookup_insert_eq);
    destruct v2; simpl; by rewrite ?lookup_insert_eq.
Qed.

Lemma first_boolean_None first second :
  first_boolean first second = None <->
  typeof_eq first "boolean" = false /\ typeof_eq second "boolean" = false.
Proof. destruct first, second; simpl; split; intros H; try done; by destruct H. Qed.

Section Facts.
Variable Collection : Type.
Variable collection_s : Collection -> Document.
Variable MongoDBNamespace : Type.
Variable ns_toString : MongoDBNamespace -> string.
Variable ReadPreference : Type.
Variable ReadPreference_resolve : Collection -> Document -> ReadPreference.
Variable CommandOperation_super : Collection -> Document -> CommandOperationBase.
Variable Server : Type.
Variable server_name : Server -> string.
Variable maxWireVersion : Server -> Z.
Variable formattedOrderClause : JsVal -> JsVal.
Variable normalizeHintField : JsVal -> JsVal.
Variable ToPropertyKey : JsVal -> string.

Local Abbreviation new :=
  (constructor Collection collection_s MongoDBNamespace ns_toString ReadPreference
     ReadPreference_resolve CommandOperation_super Server).
Local Abbreviation exec :=
  (execute MongoDBNamespace ns_toString ReadPreference Server server_name
     maxWireVersion formattedOrderClause normalizeHintField ToPropertyKey).
Local Abbreviation Operation := (FindOperation MongoDBNamespace ReadPreference Server).

(** The constructor leaves [{ find: ns.toString(), query: this.filter }]
  in [this.cmd]. *)
Lemma constructor_cmd collection n f o (op : Operation) :
  new collection n f o = Normal op ->
  cmd op = <[ "query" := filter op ]> {[ "find" := VStr (ns_toString (ns op)) ]}.
Proof.
  unfold constructor. intros H.
  repeat (case_match; try discriminate); simplify_eq; reflexivity.
Qed.

(** [execute] performs exactly one action, decided by the two guards. *)
Lemma execute_outcome (op : Operation) sv :
  exists findCommand qopts,
    (exec op sv).2 =
      if allowDiskUse_guard (options op) (maxWireVersion sv) then
        [Callback (MongoError allowDiskUse_message)]
      else if collation_guard (options op) (maxWireVersion sv) then
        [Callback (MongoError (collation_message Server server_name sv (maxWireVersion sv)))]
      else [ServerQuery (ns_toString (ns op)) findCommand qopts].
Proof.
  unfold allowDiskUse_guard, collation_guard, execute.
  cbn [options set_server ns].
  destruct (negb _ && _); [by exists ∅, ∅|].
  destruct (truthy _ && _); [by exists ∅, ∅|].
  eauto.
Qed.

(** The three fields of the command that come from a pair of options. *)
Lemma execute_query_fields (op : Operation) sv nsname findCommand qopts :
  List.In (ServerQuery nsname findCommand qopts) (exec op sv).2 ->
  cmd op = <[ "query" := filter op ]> {[ "find" := VStr (ns_toString (ns op)) ]} ->
  findCommand !! "noCursorTimeout" = noCursorTimeout_table (options op)
  /\ findCommand !! "awaitData" = awaitData_table (options op)
  /\ findCommand !! "allowPartialResults" = allowPartialResults_table (options op).
Proof.
  unfold execute. intros Hin Hcmd.
  cbn [options set_server ns cmd readConcern session fullResponse bsonOptions] in Hin.
  destruct (negb _ && _); [destruct Hin as [Hin|[]]; discriminate|].
  destruct (truthy _ && _); [destruct Hin as [Hin|[]]; discriminate|].
  destruct Hin as [Hin|[]]. injection Hin as _ <- _.
  rewrite Hcmd.
  unfold noCursorTimeout_table, awaitData_table, allowPartialResults_table.
  repeat split.
  - rewrite !lookup_assign_when_ne by discriminate.
    rewrite !lookup_else_if_ne by discriminate.
    rewrite lookup_else_if_eq; [reflexivity|].
    rewrite !lookup_assign_when_ne by discriminate.
    rewrite lookup_if_insert_ne by discriminate.
    rewrite !lookup_assign_when_ne by discriminate. reflexivity.
  - rewrite !lookup_assign_when_ne by discriminate.
    rewrite lookup_else_if_ne by discriminate.
    rewrite lookup_else_if_eq; [reflexivity|].
    rewrite lookup_else_if_ne by discriminate.
    rewrite !lookup_assign_when_ne by discriminate.
    rewrite lookup_if_insert_ne by discriminate.
    rewrite !lookup_assign_when_ne by discriminate. reflexivity.
  - rewrite !lookup_assign_when_ne by discriminate.
    rewrite lookup_else_if_eq; [reflexivity|].
    rewrite !lookup_else_if_ne by discriminate.
    rewrite !lookup_assign_when_ne by discriminate.
    rewrite lookup_if_insert_ne by discriminate.
    rewrite !lookup_assign_when_ne by discriminate. reflexivity.
Qed.

(** C6.  For an operation built by the constructor, the [awaitData] field
  of the find command handed to [server.query] is given by the
  translation table over the two options [awaitData] and [awaitdata]
  alone: the value of [options.awaitData] when that is a boolean,
  otherwise the value of [options.awaitdata] when that is a boolean,
  otherwise the field is absent. *)
Theorem awaitData_translation collection n f o (op : Operation) sv
    nsname findCommand qopts :
  new collection n f o = Normal op ->
  List.In (ServerQuery nsname findCommand qopts) (exec op sv).2 ->
  findCommand !! "awaitData" = awaitData_table (options op).
Proof.
  intros Hnew Hin.
  apply (execute_query_fields _ _ _ _ _ Hin), (constructor_cmd _ _ _ _ _ Hnew).
Qed.

(** C10.  For an operation built by the constructor, the
  [noCursorTimeout] field of the find command is [options.timeout] when
  that is a boolean, otherwise [options.noCursorTimeout] when that is a
  boolean, otherwise absent; so [timeout] wins when both are booleans,
  whereas for [awaitData]/[awaitdata] and [allowPartialResults]/[partial]
  the first-named, non-deprecated option wins. *)
Theorem noCursorTimeout_precedence collection n f o (op : Operation) sv
    nsname findCommand qopts :
  new collection n f o = Normal op ->
  List.In (ServerQuery nsname findCommand qopts) (exec op sv).2 ->
  (findCommand !! "noCursorTimeout" = noCursorTimeout_table (options op)
   /\ findCommand !! "awaitData" = awaitData_table (options op)
   /\ findCommand !! "allowPartialResults" = allowPartialResults_table (options op))
  /\ (forall b1 b2,
        get (options op) "timeout" = VBool b1 ->
        get (options op) "noCursorTimeout" = VBool b2 ->
        findCommand !! "noCursorTimeout" = Some (VBool b1))
  /\ (forall b1 b2,
        get (options op) "awaitData" = VBool b1 ->
        get (options op) "awaitdata" = VBool b2 ->
        findCommand !! "awaitData" = Some (VBool b1))
  /\ (forall b1 b2,
        get (options op) "allowPartialResults" = VBool b1 ->
        get (options op) "partial" = VBool b2 ->
        findCommand !! "allowPartialResults" = Some (VBool b1)).
Proof.
  intros Hnew Hin.
  destruct (execute_query_fields _ _ _ _ _ Hin (constructor_cmd _ _ _ _ _ Hnew))
    as (Ht & Ha & Hp).
  split; [done|].
  rewrite Ht, Ha, Hp.
  unfold noCursorTimeout_table, awaitData_table, allowPartialResults_table.
  repeat split; intros b1 b2 -> ->; reflexivity.
Qed.

(** C9.  When [options.allowDiskUse] is defined and the server's wire
  version is below 4, or [options.collation] is set and the wire version
  is below 5, [execute] invokes the callback with a MongoError and does
  not call [server.query]. *)
Theorem execute_fails_fast (op : Operation) sv :
  (get (options op) "allowDiskUse" <> VUndefined /\ (maxWireVersion sv < 4)%Z)
  \/ (truthy (get (options op) "collation") = true /\ (maxWireVersion sv < 5)%Z) ->
  (exists message, (exec op sv).2 = [Callback (MongoError message)])
  /\ (forall nsname findCommand qopts,
        ~ List.In (ServerQuery nsname findCommand qopts) (exec op sv).2).
Proof.
  intros H.
  assert (Hg : allowDiskUse_guard (options op) (maxWireVersion sv) = true
               \/ collation_guard (options op) (maxWireVersion sv) = true).
  { unfold allowDiskUse_guard, collation_guard, SUPPORTS_WRITE_CONCERN_AND_COLLATION.
    destruct H as [[Hd Hw]|[Hc Hw]]; [left|right].
    - apply andb_true_intro; split; [|by apply Z.ltb_lt].
      apply negb_true_iff, not_true_is_false. by rewrite typeof_eq_undefined.
    - apply andb_true_intro; split; [done|by apply Z.ltb_lt]. }
  destruct (execute_outcome op sv) as (fc & q & ->).
  destruct (allowDiskUse_guard _ _).
  - split; [eauto|]. intros ??? [Heq|[]]; discriminate.
  - destruct Hg as [Heq| ->]; [discriminate|].
    split; [eauto|]. intros ??? [Heq|[]]; discriminate.
Qed.

(** C8, amended.  An [undefined] filter argument takes the default [{}].
  For every other filter argument: if it is an array or not of object
  type, the constructor throws the MongoError and constructs nothing;
  if its [_bsontype] is ['ObjectID'], the stored filter is the wrapper
  [{ _id: filter }]. *)
Theorem constructor_filter_validation collection n filter_arg o :
  filter_arg <> VUndefined ->
  new collection n VUndefined o = new collection n (VObject ∅) o
  /\ (isArray filter_arg = true \/ typeof filter_arg <> "object" ->
      new collection n filter_arg o
      = Throw (MongoError "Query filter must be a plain object or ObjectId"))
  /\ (get_member filter_arg "_bsontype" = VStr "ObjectID" ->
      exists op : Operation,
        new collection n filter_arg o = Normal op
        /\ filter op = VObject {[ "_id" := filter_arg ]}).
Proof.
  intros Hdef. split; [reflexivity|]. split.
  - intros [Ha|Ht]; unfold constructor.
    + destruct filter_arg; try discriminate. reflexivity.
    + destruct filter_arg; try reflexivity; try congruence; by destruct Ht.
  - intros Hb. destruct filter_arg; try discriminate.
    unfold constructor. cbn -[get_member]. rewrite Hb. cbn. eauto.
Qed.

End Facts.

(** The default parameter value: [new FindOperation(collection, ns, undefined)]
    does not throw although [undefined] is not of object type; the stored
    filter is [{}]. *)
Lemma constructor_undefined_filter :
  typeof VUndefined <> "object"
  /\ Sample.constructor ∅ Sample.test_ns VUndefined None
     <> Throw (MongoError "Query filter must be a plain object or ObjectId")
  /\ exists op, Sample.constructor ∅ Sample.test_ns VUndefined None = Normal op
                /\ filter op = VObject ∅.
Proof.
  split; [discriminate|]. split; [discriminate|].
  eexists. split; reflexivity.
Qed.

Lemma constructor_filter_validation_witness :
  Sample.constructor ∅ Sample.test_ns (VNum 3) None
  = Throw (MongoError "Query filter must be a plain object or ObjectId")
  /\ exists op, Sample.constructor ∅ Sample.test_ns Sample.objectId None = Normal op
                /\ filter op = VObject {[ "_id" := Sample.objectId ]}.
Proof.
  split.
  - apply (constructor_filter_validation Sample.Collection Sample.collection_s
             Sample.MongoDBNamespace Sample.ns_toString Sample.ReadPreference
             Sample.ReadPreference_resolve Sample.CommandOperation_super Sample.Server
             ∅ Sample.test_ns (VNum 3) None); [discriminate|].
    right. discriminate.
  - apply (constructor_filter_validation Sample.Collection Sample.collection_s
             Sample.MongoDBNamespace Sample.ns_toString Sample.ReadPreference
             Sample.ReadPreference_resolve Sample.CommandOperation_super Sample.Server
             ∅ Sample.test_ns Sample.objectId None); [discriminate|].
    vm_compute. reflexivity.
Defined.

Lemma test_op_constructed :
  Sample.constructor ∅ Sample.test_ns (VObject ∅) (Some Sample.test_options)
  = Normal Sample.test_op.
Proof. vm_compute. reflexivity. Qed.

Lemma test_op_query :
  List.In (ServerQuery "db.coll" Sample.test_findCommand Sample.test_queryOptions)
    (Sample.execute Sample.test_op Sample.test_server).2.
Proof. vm_compute. left. reflexivity. Qed.

Lemma awaitData_translation_witness :
  Sample.test_findCommand !! "awaitData" = awaitData_table Sample.test_options.
Proof.
  exact (awaitData_translation Sample.Collection Sample.collection_s
           Sample.MongoDBNamespace Sample.ns_toString Sample.ReadPreference
           Sample.ReadPreference_resolve Sample.CommandOperation_super Sample.Server
           Sample.server_name Sample.maxWireVersion Sample.formattedOrderClause
           Sample.normalizeHintField Sample.ToPropertyKey
           ∅ Sample.test_ns (VObject ∅) (Some Sample.test_options) Sample.test_op
           Sample.test_server "db.coll" Sample.test_findCommand Sample.test_queryOptions
           test_op_constructed test_op_query).
Defined.

Lemma noCursorTimeout_precedence_witness :
  Sample.test_findCommand !! "noCursorTimeout" = Some (VBool false).
Proof.
  refine (proj1 (proj2
    (noCursorTimeout_precedence Sample.Collection Sample.collection_s
       Sample.MongoDBNamespace Sample.ns_toString Sample.ReadPreference
       Sample.ReadPreference_resolve Sample.CommandOperation_super Sample.Server
       Sample.server_name Sample.maxWireVersion Sample.formattedOrderClause
       Sample.normalizeHintField Sample.ToPropertyKey
       ∅ Sample.test_ns (VObject ∅) (Some Sample.test_options) Sample.test_op
       Sample.test_server "db.coll" Sample.test_findCommand Sample.test_queryOptions
       test_op_constructed test_op_query)) false true _ _);
    vm_compute; reflexivity.
Defined.

Lemma execute_fails_fast_witness :
  (exists message,
      (Sample.execute Sample.collation_op Sample.old_server).2
      = [Callback (MongoError message)])
  /\ (forall nsname findCommand qopts,
        ~ List.In (ServerQuery nsname findCommand qopts)
            (Sample.execute Sample.collation_op Sample.old_server).2).
Proof.
  apply (execute_fails_fast Sample.MongoDBNamespace Sample.ns_toString
           Sample.ReadPreference Sample.Server Sample.server_name
           Sample.maxWireVersion Sample.formattedOrderClause
           Sample.normalizeHintField Sample.ToPropertyKey
           Sample.collation_op Sample.old_server).
  left. split; [vm_compute; discriminate|vm_compute; reflexivity].
Defined.

End FindFacts.


(** * Properties of src/cmap/auth/defaultAuthProviders.ts *)
Module AuthFacts.
Import Auth.

Lemma define_provider_app st fields rest key cls :
  define_provider (length st) key cls (st ++ PlainObject fields :: rest)%list
  = (st ++ PlainObject (<[ mechanism_id key := (length st + S (length rest))%nat ]> fields)
        :: rest ++ [ProviderInstance cls])%list.
Proof.
  unfold define_provider, alloc, define_property.
  rewrite length_app. cbn [length].
  rewrite <- app_assoc. cbn [app].
  rewrite (lookup_app_r st) by lia.
  rewrite Nat.sub_diag. cbn [lookup list_lookup].
  rewrite insert_app_r_alt by lia.
  rewrite Nat.sub_diag. reflexivity.
Qed.

Lemma module_body_eq st :
  module_body st
  = (length st,
     (st ++ [PlainObject (registry_fields (length st));
             ProviderInstance MongoDBAWS; ProviderInstance MongoCR;
             ProviderInstance GSSAPI; ProviderInstance Plain;
             ProviderInstance ScramSHA1; ProviderInstance ScramSHA256;
             ProviderInstance X509])%list).
Proof.
  unfold module_body, alloc.
  rewrite !define_provider_app. cbn [length app].
  unfold registry_fields.
  repeat (f_equal; try lia).
Qed.

Lemma registry_fields_lookup r m :
  registry_fields r !! mechanism_id m =
    match m with
    | MONGODB_AWS => Some (r + 1)%nat
    | MONGODB_CR => Some (r + 2)%nat
    | MONGODB_DEFAULT => None
    | MONGODB_GSSAPI => Some (r + 3)%nat
    | MONGODB_PLAIN => Some (r + 4)%nat
    | MONGODB_SCRAM_SHA1 => Some (r + 5)%nat
    | MONGODB_SCRAM_SHA256 => Some (r + 6)%nat
    | MONGODB_X509 => Some (r + 7)%nat
    end.
Proof. unfold registry_fields. destruct m; by simplify_map_eq. Qed.

Lemma registry_fields_keys r key :
  is_Some (registry_fields r !! key) <->
  exists m, concrete m = true /\ key = mechanism_id m.
Proof.
  split.
  - unfold registry_fields. intros Hs.
    repeat (apply lookup_insert_is_Some in Hs as [<-|[_ Hs]];
            [first [by exists MONGODB_AWS | by exists MONGODB_CR
                   | by exists MONGODB_GSSAPI | by exists MONGODB_PLAIN
                   | by exists MONGODB_SCRAM_SHA1 | by exists MONGODB_SCRAM_SHA256
                   | by exists MONGODB_X509]|]).
    by apply lookup_empty_is_Some in Hs.
  - intros (m & Hm & ->). rewrite registry_fields_lookup.
    destruct m; try discriminate; eauto.
Qed.

Lemma lookup_after (st : Store) (l : list HeapObject) (k : nat) :
  (st ++ l)%list !! (length st + k)%nat = l !! k.
Proof. rewrite lookup_app_r by lia. f_equal. lia. Qed.

(** The store after the module body, with the registry and its providers. *)
Lemma module_body_registry (st0 : Store) :
  let AUTH_PROVIDERS := (module_body st0).1 in
  let st := (module_body st0).2 in
  AUTH_PROVIDERS = length st0
  /\ registry_at AUTH_PROVIDERS st = Some (registry_fields (length st0))
  /\ forall m, provider_class AUTH_PROVIDERS (mechanism_id m) st = class_of m.
Proof.
  rewrite module_body_eq. cbn [fst snd].
  assert (Hreg : registry_at (length st0)
                   (st0 ++ [PlainObject (registry_fields (length st0));
                            ProviderInstance MongoDBAWS; ProviderInstance MongoCR;
                            ProviderInstance GSSAPI; ProviderInstance Plain;
                            ProviderInstance ScramSHA1; ProviderInstance ScramSHA256;
                            ProviderInstance X509])%list
                 = Some (registry_fields (length st0))).
  { unfold registry_at. rewrite <- (Nat.add_0_r (length st0)) at 1.
    by rewrite lookup_after. }
  split; [reflexivity|]. split; [exact Hreg|].
  intros m. unfold provider_class. rewrite Hreg. cbn [mbind option_bind].
  rewrite registry_fields_lookup.
  destruct m; cbn [mbind option_bind]; rewrite ?lookup_after; reflexivity.
Qed.

(** C7.  Whatever the store at the time of the call, [defaultAuthProviders()]
    returns the reference bound to [AUTH_PROVIDERS] and changes nothing, so
    any two calls yield the same object.  After the module body has run,
    that object has a field for exactly the seven concrete mechanisms
    (every [AuthMechanism] but [DEFAULT]), each holding an instance of the
    mechanism's provider class, and different mechanisms hold different
    instances. *)
Theorem defaultAuthProviders_singleton (st0 st1 st2 : Store) :
  let AUTH_PROVIDERS := (module_body st0).1 in
  let st := (module_body st0).2 in
  (defaultAuthProviders AUTH_PROVIDERS st1).1 = AUTH_PROVIDERS
  /\ (defaultAuthProviders AUTH_PROVIDERS st1).1 = (defaultAuthProviders AUTH_PROVIDERS st2).1
  /\ (defaultAuthProviders AUTH_PROVIDERS st1).2 = st1
  /\ exists fields,
      registry_at AUTH_PROVIDERS st = Some fields
      /\ (forall key, is_Some (fields !! key) <->
                      exists m, concrete m = true /\ key = mechanism_id m)
      /\ (forall m, provider_class AUTH_PROVIDERS (mechanism_id m) st = class_of m)
      /\ (forall m1 m2 r1 r2,
            fields !! mechanism_id m1 = Some r1 ->
            fields !! mechanism_id m2 = Some r2 ->
            m1 <> m2 -> r1 <> r2).
Proof.
  destruct (module_body_registry st0) as (Href & Hreg & Hcls).
  cbn zeta. split; [reflexivity|]. split; [reflexivity|]. split; [reflexivity|].
  exists (registry_fields (length st0)).
  split; [exact Hreg|]. split; [apply registry_fields_keys|]. split; [exact Hcls|].
  intros m1 m2 r1 r2. rewrite !registry_fields_lookup.
  destruct m1, m2; intros [= <-] [= <-] Hne; try lia; congruence.
Qed.

End AuthFacts.

(** * Properties of the capability-exchange step *)
Module HandshakeFacts.
Import Auth Handshake.

(** C4.  A client configured with [DEFAULT] selects SCRAM-SHA-256 when the
    server offers it, otherwise SCRAM-SHA-1 when that is offered, and
    otherwise fails with the unsupported-mechanism error; the registry of
    [defaultAuthProviders.ts] holds both SCRAM mechanisms, as two distinct
    entries with two distinct provider instances, so a selected mechanism
    always has its provider. *)
Theorem default_mechanism_selection (offered : gset string) (st0 : Store) :
  let AUTH_PROVIDERS := (module_body st0).1 in
  let st := (module_body st0).2 in
  ("SCRAM-SHA-256" ∈ offered ->
   selectMechanism MONGODB_DEFAULT offered = inr MONGODB_SCRAM_SHA256)
  /\ ("SCRAM-SHA-256" ∉ offered -> "SCRAM-SHA-1" ∈ offered ->
      selectMechanism MONGODB_DEFAULT offered = inr MONGODB_SCRAM_SHA1)
  /\ ("SCRAM-SHA-256" ∉ offered -> "SCRAM-SHA-1" ∉ offered ->
      selectMechanism MONGODB_DEFAULT offered = inl UnsupportedMechanism)
  /\ provider_class AUTH_PROVIDERS "SCRAM-SHA-1" st = Some ScramSHA1
  /\ provider_class AUTH_PROVIDERS "SCRAM-SHA-256" st = Some ScramSHA256
  /\ (exists fields r1 r256,
        registry_at AUTH_PROVIDERS st = Some fields
        /\ fields !! "SCRAM-SHA-1" = Some r1
        /\ fields !! "SCRAM-SHA-256" = Some r256
        /\ r1 <> r256)
  /\ (forall m, selectMechanism MONGODB_DEFAULT offered = inr m ->
                is_Some (provider_class AUTH_PROVIDERS (mechanism_id m) st)).
Proof.
  destruct (AuthFacts.module_body_registry st0) as (Href & Hreg & Hcls).
  cbn zeta. unfold selectMechanism. cbn [mechanism_id].
  split; [intros H; by rewrite decide_True|].
  split; [intros H256 H1; by rewrite decide_False, decide_True|].
  split; [intros H256 H1; by rewrite !decide_False|].
  split; [exact (Hcls MONGODB_SCRAM_SHA1)|].
  split; [exact (Hcls MONGODB_SCRAM_SHA256)|].
  split.
  - exists (registry_fields (length st0)), (length st0 + 5)%nat, (length st0 + 6)%nat.
    split; [exact Hreg|].
    split; [exact (AuthFacts.registry_fields_lookup _ MONGODB_SCRAM_SHA1)|].
    split; [exact (AuthFacts.registry_fields_lookup _ MONGODB_SCRAM_SHA256)|lia].
  - intros m Hm. rewrite Hcls.
    repeat case_decide; simplify_eq; eauto.
Qed.

Lemma default_mechanism_selection_witness :
  selectMechanism MONGODB_DEFAULT {[ "PLAIN"; "SCRAM-SHA-1" ]} = inr MONGODB_SCRAM_SHA1
  /\ selectMechanism MONGODB_DEFAULT {[ "PLAIN" ]} = inl UnsupportedMechanism.
Proof.
  split.
  - apply (proj1 (proj2 (default_mechanism_selection {[ "PLAIN"; "SCRAM-SHA-1" ]} [])));
      (eapply bool_decide_unpack; vm_compute; exact I).
  - apply (proj1 (proj2 (proj2 (default_mechanism_selection {[ "PLAIN" ]} []))));
      (eapply bool_decide_unpack; vm_compute; exact I).
Defined.

End HandshakeFacts.


(** * Properties of latency narrowing *)
Module SelectorFacts.
Import Sdam Selector.

(** The running minimum of the fold is below its start and below every
    latency folded in, and it is one of them. *)
Lemma foldl_min_spec (rest : list ServerDescription) (init : Q) :
  let low := foldl (fun low sd => if Qle_bool (latency sd) low then latency sd else low)
               init rest in
  (low <= init)%Q
  /\ (forall sd, List.In sd rest -> (low <= latency sd)%Q)
  /\ (low = init \/ exists sd, List.In sd rest /\ latency sd = low).
Proof.
  revert init. induction rest as [|x rest IH]; intros init; cbn [foldl].
  - split; [apply Qle_refl|]. split; [intros sd []|by left].
  - destruct (Qle_bool (latency x) init) eqn:Hle.
    + apply Qle_bool_iff in Hle.
      destruct (IH (latency x)) as (H1 & H2 & H3). cbn zeta in *.
      split; [by eapply Qle_trans|].
      split.
      * intros sd [<-|Hin]; [exact H1|by apply H2].
      * right. destruct H3 as [->|(sd & Hin & Heq)].
        -- exists x. split; [by left|done].
        -- exists sd. split; [by right|done].
    + assert (Hlt : (init < latency x)%Q).
      { apply Qnot_le_lt. intros H. apply Qle_bool_iff in H. congruence. }
      destruct (IH init) as (H1 & H2 & H3). cbn zeta in *.
      split; [done|]. split.
      * intros sd [<-|Hin]; [|by apply H2].
        eapply Qle_trans; [exact H1|by apply Qlt_le_weak].
      * destruct H3 as [->|(sd & Hin & Heq)]; [by left|].
        right. exists sd. split; [by right|done].
Qed.

(** C5, amended.  For a non-empty list of eligible servers, narrowing
    returns exactly the servers whose latency lies in the closed interval
    from the minimum eligible latency to that minimum plus the window; with
    the default window of 15 ms the eligible latencies 5, 6, 18 and 20 ms
    are all returned (20 = 5 + 15 lies on the bound), and a server at 21 ms
    would be left out. *)
Theorem latencyNarrow_window (window : Q) (first : ServerDescription)
    (rest : list ServerDescription) :
  let eligible := first :: rest in
  let low := minLatency first rest in
  (exists m, List.In m eligible /\ latency m = low)
  /\ (forall sd, List.In sd eligible -> (low <= latency sd)%Q)
  /\ (forall sd, List.In sd (latencyNarrow window eligible) <->
                 List.In sd eligible
                 /\ (low <= latency sd)%Q /\ (latency sd <= low + window)%Q)
  /\ List.map latency (latencyNarrow DEFAULT_WINDOW example_eligible)
     = [5; 6; 18; 20]%Q
  /\ List.map latency
       (latencyNarrow DEFAULT_WINDOW (example_eligible ++ [server_at "e:27017" 21])%list)
     = [5; 6; 18; 20]%Q.
Proof.
  cbn zeta.
  destruct (foldl_min_spec rest (latency first)) as (H1 & H2 & H3). cbn zeta in *.
  fold (minLatency first rest) in *.
  assert (Hall : forall sd, List.In sd (first :: rest) ->
                            (minLatency first rest <= latency sd)%Q).
  { intros sd [<-|Hin]; [exact H1|by apply H2]. }
  split.
  { destruct H3 as [Heq|(sd & Hin & Heq)].
    - exists first. split; [by left|done].
    - exists sd. split; [by right|done]. }
  split; [exact Hall|].
  split.
  { intros sd. unfold latencyNarrow. rewrite filter_In, Qle_bool_iff.
    split; [intros [Hin Hle]|intros (Hin & _ & Hle)]; auto. }
  split; vm_compute; reflexivity.
Qed.

(** The example as the specification gives it: the server at 20 ms is not
    excluded. *)
Lemma narrowing_example_keeps_20 :
  List.map latency (latencyNarrow DEFAULT_WINDOW example_eligible) <> [5; 6; 18]%Q
  /\ List.In (server_at "d:27017" 20) (latencyNarrow DEFAULT_WINDOW example_eligible)
  /\ (latency (server_at "d:27017" 20) <= 5 + DEFAULT_WINDOW)%Q.
Proof.
  split; [vm_compute; discriminate|].
  split; [vm_compute; tauto|].
  vm_compute. discriminate.
Qed.

End SelectorFacts.


(** * Properties of the connection pool *)
Module PoolFacts.
Import Pool.
Local Open Scope nat_scope.

(** The outcomes of [checkout]. *)
Lemma checkout_cases request now h p :
  (exists i c, list_find (fun c => generation c = pool_generation p) (idle p) = Some (i, c)
               /\ checkout request now h p
                  = (Reused (mark c now true), with_idle p (delete i (idle p)) (size p)))
  \/ (list_find (fun c => generation c = pool_generation p) (idle p) = None
      /\ ((size p < maxSize p /\ h = true
           /\ exists c p', checkout request now h p = (Created c, p')
                /\ c = {| socket := nextSocket p; generation := pool_generation p;
                          authenticated := true; lastUse := now; inUse := true |}
                /\ idle p' = idle p /\ pool_generation p' = pool_generation p)
          \/ (size p < maxSize p /\ h = false
              /\ exists p', checkout request now h p = (Failed AuthError, p')
                   /\ idle p' = idle p /\ pool_generation p' = pool_generation p)
          \/ (maxSize p <= size p
              /\ checkout request now h p
                 = (Blocked, with_waitQueue p (waitQueue p ++ [request])%list)))).
Proof.
  unfold checkout.
  destruct (list_find _ (idle p)) as [[i c]|] eqn:Hfind; [left; eauto|right].
  split; [done|].
  destruct (size p <? maxSize p) eqn:Hsz.
  - apply Nat.ltb_lt in Hsz. destruct h; [left|right; left].
    + split; [done|]. split; [done|]. unfold open. cbn. eauto 10.
    + split; [done|]. split; [done|]. unfold open. cbn. eauto 10.
  - apply Nat.ltb_ge in Hsz. right; right. done.
Qed.

Lemma checkout_idle_not_newer request now h p :
  idle_not_newer p -> idle_not_newer (checkout request now h p).2.
Proof.
  unfold idle_not_newer. intros Hp.
  destruct (checkout_cases request now h p)
    as [(i & c & Hf & ->)|(Hf & [(_ & _ & c & p' & -> & _ & Hi & Hg)
                                |[(_ & _ & p' & -> & Hi & Hg)| (_ & ->)]])]; cbn.
  - by apply Forall_delete.
  - by rewrite Hi, Hg.
  - by rewrite Hi, Hg.
  - done.
Qed.

Lemma Forall_filter_sub {A} (P : A -> Prop) (f : A -> bool) (l : list A) :
  Forall P l -> Forall P (List.filter f l).
Proof.
  rewrite !Forall_forall. intros H x Hx. apply H.
  apply list_elem_of_In. apply list_elem_of_In in Hx. apply filter_In in Hx. tauto.
Qed.

Lemma reap_list_Forall (P : Connection -> Prop) now maxIdle keep l :
  Forall P l -> Forall P (reap_list now maxIdle keep l).
Proof.
  revert keep. induction l as [|c l IH]; intros keep Hl; [done|].
  apply Forall_cons in Hl as [Hc Hl]. cbn [reap_list].
  destruct (_ && _); [by apply IH|]. apply Forall_cons. split; [done|by apply IH].
Qed.

Lemma step_generation p o : pool_generation p <= pool_generation (step p o).
Proof.
  destruct o; cbn [step].
  - destruct (checkout_cases request now handshake_ok p)
      as [(i & c & Hf & ->)|(Hf & [(_ & _ & c & p' & -> & _ & Hi & Hg)
                                  |[(_ & _ & p' & -> & Hi & Hg)| (_ & ->)]])]; cbn; lia.
  - cbn. lia.
  - unfold checkin. cbn. destruct (_ && _); cbn; lia.
  - cbn. lia.
  - cbn. lia.
  - unfold maintain. destruct (_ <? _); [|lia]. unfold open. destruct handshake_ok; cbn; lia.
  - cbn. lia.
Qed.

Lemma run_generation p ops : pool_generation p <= pool_generation (foldl step p ops).
Proof.
  revert p. induction ops as [|o ops IH]; intros p; cbn [foldl]; [lia|].
  etrans; [apply (step_generation p o)|apply IH].
Qed.

Lemma step_idle_not_newer p o : idle_not_newer p -> idle_not_newer (step p o).
Proof.
  intros Hp. destruct o; cbn [step].
  - by apply checkout_idle_not_newer.
  - exact Hp.
  - unfold idle_not_newer, checkin in *. cbn.
    destruct (generation c =? pool_generation p) eqn:Hg; cbn; [|done].
    destruct healthy; cbn; [|done].
    apply Forall_app. split; [done|]. apply Forall_singleton. cbn.
    apply Nat.eqb_eq in Hg. lia.
  - unfold idle_not_newer in *. cbn. eapply Forall_impl; [exact Hp|]. cbn. lia.
  - unfold idle_not_newer in *. cbn. by apply Forall_filter_sub.
  - unfold idle_not_newer, maintain in *.
    destruct (_ <? _); [|done]. unfold open. destruct handshake_ok; cbn; [|done].
    apply Forall_app. split; [done|]. apply Forall_singleton. cbn. lia.
  - unfold idle_not_newer in *. cbn. by apply reap_list_Forall.
Qed.

Lemma reachable_idle_not_newer minSz maxSz maxIdle ops :
  idle_not_newer (foldl step (create minSz maxSz maxIdle) ops).
Proof.
  assert (H0 : idle_not_newer (create minSz maxSz maxIdle)) by constructor.
  revert H0. generalize (create minSz maxSz maxIdle).
  induction ops as [|o ops IH]; intros p Hp; cbn [foldl]; [done|].
  apply IH. by apply step_idle_not_newer.
Qed.

Lemma checkout_returns_current request now h p c :
  returned (checkout request now h p).1 = Some c -> generation c = pool_generation p.
Proof.
  destruct (checkout_cases request now h p)
    as [(i & c0 & Hf & ->)|(Hf & [(_ & _ & c0 & p' & -> & -> & Hi & Hg)
                                 |[(_ & _ & p' & -> & Hi & Hg)| (_ & ->)]])];
    cbn; intros [= <-]; cbn; [|done].
  apply list_find_Some in Hf as (_ & Hg & _). exact Hg.
Qed.

(** C3, amended.  For every pool state, a connection returned by
    [checkout] has the pool's current generation.  When no idle connection
    is newer than the pool (which holds in every reachable state), a
    checkout right after [clear()] either creates a freshly authenticated
    connection of the new generation, fails with the authentication error
    when the handshake of that new connection fails, or blocks; and
    whatever happens after the clear, no later checkout returns a
    connection that was idle before it. *)
Theorem checkout_never_stale (p : Pool) (request now : nat) (handshake_ok : bool) :
  (forall c, returned (checkout request now handshake_ok p).1 = Some c ->
             generation c = pool_generation p)
  /\ (forall minSz maxSz maxIdle ops,
        idle_not_newer (foldl step (create minSz maxSz maxIdle) ops))
  /\ (idle_not_newer p ->
      (let r := (checkout request now handshake_ok (clear p)).1 in
       (exists c, r = Created c /\ authenticated c = true
                  /\ generation c = S (pool_generation p)
                  /\ Forall (fun c' => generation c' < generation c) (idle p))
       \/ r = Failed AuthError \/ r = Blocked)
      /\ (forall ops c,
            returned (checkout request now handshake_ok (foldl step (clear p) ops)).1
            = Some c ->
            forall c', List.In c' (idle p) -> generation c' < generation c)).
Proof.
  split; [intros c; apply checkout_returns_current|].
  split; [apply reachable_idle_not_newer|].
  intros Hp. split.
  - cbn zeta.
    destruct (checkout_cases request now handshake_ok (clear p))
      as [(i & c0 & Hf & ->)|(Hf & [(_ & _ & c0 & p' & -> & -> & Hi & Hg)
                                   |[(_ & _ & p' & -> & Hi & Hg)| (_ & ->)]])]; cbn.
    + apply list_find_Some in Hf as (Hl & Hg & _). cbn in Hl, Hg.
      unfold idle_not_newer in Hp. rewrite Forall_forall in Hp.
      apply list_elem_of_lookup_2, Hp in Hl. lia.
    + left. eexists. split; [reflexivity|]. cbn. split; [done|]. split; [done|].
      eapply Forall_impl; [exact Hp|]. cbn. lia.
    + by right; left.
    + by right; right.
  - intros ops c Hc c' Hin.
    apply checkout_returns_current in Hc. rewrite Hc.
    pose proof (run_generation (clear p) ops) as Hmono. cbn in Hmono.
    unfold idle_not_newer in Hp. rewrite Forall_forall in Hp.
    apply list_elem_of_In, Hp in Hin. lia.
Qed.

(** A checkout after [clear()] whose handshake fails neither creates a
    connection nor blocks: it fails with the authentication error. *)
Lemma checkout_after_clear_auth_failure :
  idle_not_newer example_pool
  /\ (checkout 1 50 false (clear example_pool)).1 = Failed AuthError
  /\ returned (checkout 1 50 false (clear example_pool)).1 = None
  /\ (checkout 1 50 false (clear example_pool)).1 <> Blocked.
Proof.
  split; [repeat constructor|]. split; [reflexivity|].
  split; [reflexivity|discriminate].
Qed.

Lemma checkout_never_stale_witness :
  idle_not_newer example_pool
  /\ ((exists c, (checkout 1 50 true (clear example_pool)).1 = Created c
                 /\ authenticated c = true
                 /\ generation c = S (pool_generation example_pool)
                 /\ Forall (fun c' => generation c' < generation c) (idle example_pool))
      \/ (checkout 1 50 true (clear example_pool)).1 = Failed AuthError
      \/ (checkout 1 50 true (clear example_pool)).1 = Blocked).
Proof.
  assert (H : idle_not_newer example_pool) by (repeat constructor).
  split; [exact H|].
  exact (proj1 (proj2 (proj2 (checkout_never_stale example_pool 1 50 true)) H)).
Defined.

End PoolFacts.


(** * Properties of the topology state machine *)
Module SdamFacts.
Import Sdam.

(** ** The order on topology versions *)











Lemma older_asym a b : older a b = true -> older b a = false.
Proof.
  unfold older. 
  destruct (N.ltb_spec (setVersion a) (setVersion b)), (N.ltb_spec (setVersion b) (setVersion a)),
    (N.eqb_spec (setVersion a) (setVersion b)), (N.eqb_spec (setVersion b) (setVersion a)),
    (N.ltb_spec (electionId a) (electionId b)), (N.ltb_spec (electionId b) (electionId a));
    cbn; try discriminate; try reflexivity; lia.
Qed.

(** ** The recorded primary *)

Lemma recordedPrimary_Some m a0 a p :
  recordedPrimary m a0 = Some (a, p) ->
  m !! a = Some p /\ a <> a0 /\ is_primary p = true.
Proof.
  unfold recordedPrimary. intros H.
  apply fmap_Some in H as ([i [a' p']] & Hf & Heq). cbn in Heq. simplify_eq.
  apply list_find_Some in Hf as (Hl & [Hne Hp] & _). cbn in Hne, Hp.
  apply list_elem_of_lookup_2, elem_of_map_to_list in Hl. done.
Qed.

Lemma recordedPrimary_None m a0 a p :
  recordedPrimary m a0 = None ->
  m !! a = Some p -> a <> a0 -> is_primary p = false.
Proof.
  unfold recordedPrimary. intros H Hl Hne.
  apply fmap_None in H. rewrite list_find_None in H.
  rewrite Forall_forall in H.
  apply elem_of_map_to_list in Hl. apply H in Hl. cbn in Hl.
  destruct (is_primary p); [|done]. by destruct Hl.
Qed.

(** ** One step, by cases *)

Lemma step_cases td sd :
  (exists stored, servers td !! address sd = Some stored
                  /\ newer sd stored = false
                  /\ onServerDescription td sd = (td, []))
  \/ ((forall stored, servers td !! address sd = Some stored -> newer sd stored = true)
      /\ exists m rc, StepCase td sd m rc
           /\ onServerDescription td sd = ({| type := classify m; servers := m |}, rc)).
Proof.
  unfold onServerDescription.
  destruct (servers td !! address sd) as [stored|] eqn:Hst.
  - destruct (newer sd stored) eqn:Hn; cbn [negb].
    + right. split; [by intros ? [= <-]|].
      destruct (is_primary sd) eqn:Hp.
      * destruct (recordedPrimary (servers td) (address sd)) as [[a p]|] eqn:Hr.
        -- apply recordedPrimary_Some in Hr as (Hl & Hne & Hpp).
           destruct (older sd p) eqn:Ho; do 2 eexists; (split; [|reflexivity]).
           ++ by eapply StepRejectIncoming.
           ++ by eapply StepDemoteRecorded.
        -- do 2 eexists; split; [|reflexivity]. apply StepStore. right.
           intros a p. by apply recordedPrimary_None.
      * do 2 eexists; split; [|reflexivity]. apply StepStore. by left.
    + left. eauto.
  - right. split; [intros ? [=]|].
    destruct (is_primary sd) eqn:Hp.
    * destruct (recordedPrimary (servers td) (address sd)) as [[a p]|] eqn:Hr.
      -- apply recordedPrimary_Some in Hr as (Hl & Hne & Hpp).
         destruct (older sd p) eqn:Ho; do 2 eexists; (split; [|reflexivity]).
         ++ by eapply StepRejectIncoming.
         ++ by eapply StepDemoteRecorded.
      -- do 2 eexists; split; [|reflexivity]. apply StepStore. right.
         intros a p. by apply recordedPrimary_None.
    * do 2 eexists; split; [|reflexivity]. apply StepStore. by left.
Qed.

(** ** At most one primary *)

Lemma step_one_primary td sd :
  at_most_one_primary td -> at_most_one_primary (onServerDescription td sd).1.
Proof.
  intros Hinv.
  destruct (step_cases td sd) as [(stored & _ & _ & ->)|(_ & m & rc & Hcase & ->)];
    [exact Hinv|].
  unfold at_most_one_primary in *. cbn [fst servers].
  destruct Hcase as [Hnp | a p Hp Hl Hne Hpp Ho | a p Hp Hl Hne Hpp Ho];
    intros x y sx sy Hx Hy Hpx Hpy.
  - destruct Hnp as [Hnp|Hnone].
    + apply lookup_insert_Some in Hx as [[<- <-]|[Hnx Hx]]; [congruence|].
      apply lookup_insert_Some in Hy as [[<- <-]|[Hny Hy]]; [congruence|].
      by eapply Hinv.
    + apply lookup_insert_Some in Hx as [[<- <-]|[Hnx Hx]];
        apply lookup_insert_Some in Hy as [[<- <-]|[Hny Hy]]; try done.
      * specialize (Hnone _ _ Hy (not_eq_sym Hny)). congruence.
      * specialize (Hnone _ _ Hx (not_eq_sym Hnx)). congruence.
      * by eapply Hinv.
  - apply lookup_insert_Some in Hx as [[<- <-]|[Hnx Hx]]; [discriminate|].
    apply lookup_insert_Some in Hy as [[<- <-]|[Hny Hy]]; [discriminate|].
    by eapply Hinv.
  - apply lookup_insert_Some in Hx as [[<- <-]|[Hnx Hx]]; [discriminate|].
    apply lookup_insert_Some in Hy as [[<- <-]|[Hny Hy]]; [discriminate|].
    apply lookup_insert_Some in Hx as [[<- <-]|[Hnx' Hx]];
      apply lookup_insert_Some in Hy as [[<- <-]|[Hny' Hy]]; try done.
    + destruct Hny. by eapply (Hinv a y).
    + destruct Hnx. by eapply (Hinv a x).
    + by eapply Hinv.
Qed.

Lemma published_one_primary td updates :
  at_most_one_primary td -> Forall at_most_one_primary (published td updates).
Proof.
  revert td. induction updates as [|sd rest IH]; intros td Hinv; cbn [published].
  - by apply Forall_singleton.
  - apply Forall_cons. split; [done|]. apply IH. by apply step_one_primary.
Qed.

Lemma initial_one_primary : at_most_one_primary initial.
Proof. intros a b sa sb Ha. cbn in Ha. by rewrite lookup_empty in Ha. Qed.

(** The recorded primary other than [a0] is unique. *)
Lemma recordedPrimary_unique td a0 a p :
  at_most_one_primary td ->
  servers td !! a = Some p -> a <> a0 -> is_primary p = true ->
  recordedPrimary (servers td) a0 = Some (a, p).
Proof.
  intros Hinv Hl Hne Hp.
  destruct (recordedPrimary (servers td) a0) as [[a' p']|] eqn:Hr.
  - apply recordedPrimary_Some in Hr as (Hl' & Hne' & Hp').
    assert (a' = a) as -> by by eapply Hinv. congruence.
  - pose proof (recordedPrimary_None _ _ _ _ Hr Hl Hne). congruence.
Qed.

(** C1.  Every snapshot published while folding updates into the initial
    topology, or into any topology with at most one primary, has at most
    one server of role [RSPrimary].
    When an accepted update reports a primary while another address is the
    recorded primary, the one whose [(setVersion, electionId)] pair is older
    ends with role [Unknown] and its address is the one handed to the
    monitor for an immediate re-check; the other is the primary. *)
Theorem single_primary (td : TopologyDescription) (sd : ServerDescription) :
  (forall updates, Forall at_most_one_primary (published initial updates))
  /\ (at_most_one_primary td ->
      at_most_one_primary (onServerDescription td sd).1
      /\ (forall updates, Forall at_most_one_primary (published td updates))
      /\ (forall a p,
            is_primary sd = true ->
            servers td !! a = Some p -> a <> address sd -> is_primary p = true ->
            (forall stored, servers td !! address sd = Some stored ->
                            newer sd stored = true) ->
            let td' := (onServerDescription td sd).1 in
            let recheck := (onServerDescription td sd).2 in
            (older sd p = true ->
             role <$> servers td' !! address sd = Some Unknown
             /\ servers td' !! a = Some p
             /\ recheck = [address sd])
            /\ (older p sd = true ->
                role <$> servers td' !! a = Some Unknown
                /\ servers td' !! address sd = Some sd
                /\ recheck = [a]))).
Proof.
  split; [intros; apply published_one_primary, initial_one_primary|].
  intros Hinv. split; [by apply step_one_primary|].
  split; [intros; by apply published_one_primary|].
  intros a p Hp Hl Hne Hpp Hfresh. cbn zeta.
  pose proof (recordedPrimary_unique td (address sd) a p Hinv Hl Hne Hpp) as Hr.
  assert (Hstale :
    match servers td !! address sd with
    | Some stored => negb (newer sd stored)
    | None => false
    end = false).
  { destruct (servers td !! address sd) as [stored|]; [|done].
    by rewrite (Hfresh stored). }
  unfold onServerDescription. rewrite Hstale, Hp, Hr.
  split; intros Ho.
  - rewrite Ho. cbn [fst snd servers].
    rewrite lookup_insert_eq, lookup_insert_ne by done. done.
  - rewrite (older_asym _ _ Ho). cbn [fst snd servers].
    rewrite lookup_insert_eq, lookup_insert_ne, lookup_insert_eq by done. done.
Qed.

(** ** Stored topology versions *)







(** ** Where a stored description comes from *)






Lemma topology_b_one_primary : at_most_one_primary topology_b.
Proof. apply step_one_primary, initial_one_primary. Qed.

Lemma single_primary_witness :
  role <$> servers (onServerDescription topology_b primary_a).1 !! "a:27017" = Some Unknown
  /\ servers (onServerDescription topology_b primary_a).1 !! "b:27017" = Some primary_b
  /\ (onServerDescription topology_b primary_a).2 = ["a:27017"].
Proof.
  refine (proj1 (proj2 (proj2 (proj2 (single_primary topology_b primary_a)
                                  topology_b_one_primary))
                   "b:27017" primary_b _ _ _ _ _) _).
  - reflexivity.
  - vm_compute. reflexivity.
  - discriminate.
  - reflexivity.
  - vm_compute. intros stored H. discriminate.
  - reflexivity.
Defined.

End SdamFacts.
